(** * oop_time.py: the [Time] value type, embedded and verified

    A shallow embedding of the class [Time] of [src/oop_time.py].

    - Python [int] is unbounded: it is [Z].  Python's [//] and [%] floor,
      as [Z.div] and [Z.modulo] do.
    - Python [str] is [string]; each character is read as the code point of
      the same number (0..255).  Text with code points above 255 is outside
      the model.
    - An instance holds the single slot [_total_seconds]: record [Time].
    - A raised exception is a value of [exn]; a call that can raise returns
      [result A = exn + A].  [raise X from e] stores [e] as the cause. *)

From Stdlib Require Import ZArith List String Ascii Bool Lia.
From Stdlib Require Import Numbers.DecimalString.
Import ListNotations.

Open Scope string_scope.
Open Scope Z_scope.

(** ** Exceptions *)

Inductive exn_kind : Type := KValueError | KTypeError | KAttributeError.

(** What an exception says.  [Msg] is text the program itself builds with an
    f-string or a literal.  The others are raised by the interpreter:
    [InvalidLiteral s] is [int]'s "invalid literal for int() with base 10"
    on the text [s], [ExceedsDigitLimit n] is [int]'s refusal of a literal of
    [n] digits, [NotEnoughValues got] and [TooManyValues] come from unpacking
    into three names. *)
Inductive reason : Type :=
| Msg (text : string)
| InvalidLiteral (literal : string)
| ExceedsDigitLimit (digits : nat)
| NotEnoughValues (got : nat)
| TooManyValues.

(** [Raised k r] is [raise K(r)]; [RaisedFrom k r e] is [raise K(r) from e],
    whose [__cause__] is [e]. *)
Inductive exn : Type :=
| Raised (kind : exn_kind) (what : reason)
| RaisedFrom (kind : exn_kind) (what : reason) (cause : exn).

Definition exn_kind_of (e : exn) : exn_kind :=
  match e with Raised k _ | RaisedFrom k _ _ => k end.

Definition exn_reason (e : exn) : reason :=
  match e with Raised _ r | RaisedFrom _ r _ => r end.

Definition exn_cause (e : exn) : option exn :=
  match e with Raised _ _ => None | RaisedFrom _ _ c => Some c end.

Definition ValueError (text : string) : exn := Raised KValueError (Msg text).
Definition TypeError (text : string) : exn := Raised KTypeError (Msg text).

Definition result (A : Type) : Type := (exn + A)%type.

Definition ret {A : Type} (a : A) : result A := inr a.
Definition raise {A : Type} (e : exn) : result A := inl e.

Definition bind {A B : Type} (c : result A) (k : A -> result B) : result B :=
  match c with
  | inl e => inl e
  | inr a => k a
  end.

Notation "x <- c ;; k" := (bind c (fun x => k))
  (at level 61, c at next level, right associativity).
Notation "' pat <- c ;; k" := (bind c (fun x => match x with pat => k end))
  (at level 61, pat pattern, c at next level, right associativity).
Notation "c ;;; k" := (bind c (fun _ => k))
  (at level 61, right associativity).

(** ** Rendering integers: [str(n)] and the format [02d] *)

(** [str(n)] for a Python int. *)
Definition py_str_int (n : Z) : string :=
  NilZero.string_of_int (Z.to_int n).

Fixpoint zeros (k : nat) : string :=
  match k with
  | O => EmptyString
  | S k' => String "0" (zeros k')
  end.

(** Left padding with the digit zero up to [width] characters. *)
Definition zfill (width : nat) (s : string) : string :=
  zeros (width - String.length s) ++ s.

(** [format(n, "02d")]: the sign comes first, zeros fill up to two
    characters in all, and a longer number is left whole. *)
Definition format_02d (n : Z) : string :=
  if n <? 0 then String "-" (zfill 1 (py_str_int (- n)))
  else zfill 2 (py_str_int n).

(** ** Builtins on text: [str.split] and [int] *)

(** [s.split(sep)] for a separator of one character: the fields between the
    separators, empty ones kept; never the empty list. *)
Fixpoint py_split (sep : ascii) (s : string) : list string :=
  match s with
  | EmptyString => [EmptyString]
  | String c rest =>
      if Ascii.eqb c sep then EmptyString :: py_split sep rest
      else match py_split sep rest with
           | [] => [String c EmptyString]
           | field :: fields => String c field :: fields
           end
  end.

(** The white space [int] skips around a literal: tab, line feed, vertical
    tab, form feed, carriage return, space, and of the code points 128..255
    the two Unicode spaces U+0085 and U+00A0. *)
Definition is_space (c : ascii) : bool :=
  let n := nat_of_ascii c in
  ((9 <=? n) && (n <=? 13) || (n =? 32) || (n =? 133) || (n =? 160))%nat.

Definition is_digit (c : ascii) : bool :=
  let n := nat_of_ascii c in ((48 <=? n) && (n <=? 57))%nat.

Definition digit_value (c : ascii) : Z := Z.of_nat (nat_of_ascii c) - 48.

Fixpoint lstrip (s : string) : string :=
  match s with
  | EmptyString => EmptyString
  | String c rest => if is_space c then lstrip rest else s
  end.

(** The run of digits and single underscores at the head of [s].
    [prev_underscore] tells that the character before was an underscore;
    two in a row, or one at the end of the run, spoil the literal ([None]).
    Otherwise the value read, the number of digits and the text left. *)
Fixpoint scan_digits (s : string) (prev_underscore : bool) (acc : Z)
    (digits : nat) : option (Z * nat * string) :=
  match s with
  | EmptyString =>
      if prev_underscore then None else Some (acc, digits, EmptyString)
  | String c rest =>
      if is_digit c then
        scan_digits rest false (acc * 10 + digit_value c) (S digits)
      else if Ascii.eqb c "_" then
        if prev_underscore then None else scan_digits rest true acc digits
      else if prev_underscore then None
      else Some (acc, digits, s)
  end.

(** The interpreter's default bound on the digits of a literal
    ([sys.int_info.default_max_str_digits]). *)
Definition int_max_str_digits : nat := 4300.

Definition invalid_literal {A : Type} (s : string) : result A :=
  raise (Raised KValueError (InvalidLiteral s)).

(** [int(s)] in base 10: white space, an optional sign, digits with single
    underscores between them, white space.  The count of digits is checked
    against the bound as soon as the digits are scanned, before what
    follows them is looked at. *)
Definition py_int (s : string) : result Z :=
  let body := lstrip s in
  let '(negative, body) :=
    match body with
    | String c rest =>
        if Ascii.eqb c "-" then (true, rest)
        else if Ascii.eqb c "+" then (false, rest)
        else (false, body)
    | EmptyString => (false, body)
    end in
  match body with
  | String "_" _ => invalid_literal s
  | _ =>
      match scan_digits body false 0 O with
      | None => invalid_literal s
      | Some (value, digits, rest) =>
          if (int_max_str_digits <? digits)%nat then
            raise (Raised KValueError (ExceedsDigitLimit digits))
          else if (digits =? 0)%nat then invalid_literal s
          else match lstrip rest with
               | EmptyString => ret (if negative then - value else value)
               | String _ _ => invalid_literal s
               end
      end
  end.

(** One step of the iterator [map(int, fields)]: nothing left, or [int] of
    the next field (which may raise) and the iterator after it. *)
Definition map_int_next (it : list string)
  : result (option (Z * list string)) :=
  match it with
  | [] => ret None
  | field :: rest => v <- py_int field ;; ret (Some (v, rest))
  end.

(** [a, b, c = map(int, fields)]: three items are drawn, then a fourth draw
    checks that the iterator is exhausted. *)
Definition unpack3 (it : list string) : result (Z * Z * Z) :=
  o1 <- map_int_next it ;;
  match o1 with
  | None => raise (Raised KValueError (NotEnoughValues 0))
  | Some (a, it1) =>
      o2 <- map_int_next it1 ;;
      match o2 with
      | None => raise (Raised KValueError (NotEnoughValues 1))
      | Some (b, it2) =>
          o3 <- map_int_next it2 ;;
          match o3 with
          | None => raise (Raised KValueError (NotEnoughValues 2))
          | Some (c, it3) =>
              o4 <- map_int_next it3 ;;
              match o4 with
              | None => ret (a, b, c)
              | Some _ => raise (Raised KValueError TooManyValues)
              end
          end
      end
  end.

(** ** The class *)

Record Time : Type := mkTime { _total_seconds : Z }.

(** The values the constructors build: a second count within one day. *)
Definition valid (t : Time) : Prop := 0 <= _total_seconds t < 86400.

(** [Time._validate_range]. *)
Definition _validate_range (value min_val max_val : Z) (name : string)
  : result unit :=
  if negb ((min_val <=? value) && (value <=? max_val)) then
    raise (ValueError (name ++ " must be between " ++ py_str_int min_val ++ "-"
                       ++ py_str_int max_val ++ ", got " ++ py_str_int value))
  else ret tt.

(** [Time.__init__] with its three arguments given. *)
Definition __init__ (hours minutes seconds : Z) : result Time :=
  _validate_range hours 0 23 "hours" ;;;
  _validate_range minutes 0 59 "minutes" ;;;
  _validate_range seconds 0 59 "seconds" ;;;
  ret (mkTime (hours * 3600 + minutes * 60 + seconds)).

(** [Time(...)] as a call: an argument left out takes its default 0. *)
Definition Time_call (hours minutes seconds : option Z) : result Time :=
  __init__ (match hours with Some h => h | None => 0 end)
           (match minutes with Some m => m | None => 0 end)
           (match seconds with Some s => s | None => 0 end).

(** The properties [hours], [minutes], [seconds]. *)
Definition hours (self : Time) : Z := _total_seconds self / 3600.
Definition minutes (self : Time) : Z := (_total_seconds self mod 3600) / 60.
Definition seconds (self : Time) : Z := _total_seconds self mod 60.

(** [Time.from_seconds]. *)
Definition from_seconds (total_seconds : Z) : result Time :=
  if negb ((0 <=? total_seconds) && (total_seconds <? 86400)) then
    raise (ValueError
             "Total seconds must represent a valid 24-hour time (0-86399)")
  else __init__ (total_seconds / 3600) ((total_seconds mod 3600) / 60)
                (total_seconds mod 60).

Definition to_seconds (self : Time) : Z := _total_seconds self.

Definition to_tuple (self : Time) : Z * Z * Z :=
  (hours self, minutes self, seconds self).

(** [Time.__str__]. *)
Definition __str__ (self : Time) : string :=
  format_02d (hours self) ++ ":" ++ format_02d (minutes self) ++ ":"
  ++ format_02d (seconds self).

(** The text every failure of [from_string] carries. *)
Definition format_message : string := "Time string must be in HH:MM:SS format".

(** [Time.from_string]: the [try] body, then the handler, which takes a
    [ValueError] or an [AttributeError] and raises the format error from it. *)
Definition from_string (time_str : string) : result Time :=
  let body :=
    '(hours, minutes, seconds) <- unpack3 (py_split ":" time_str) ;;
    __init__ hours minutes seconds in
  match body with
  | inr t => ret t
  | inl e =>
      match exn_kind_of e with
      | KValueError | KAttributeError =>
          raise (RaisedFrom KValueError (Msg format_message) e)
      | KTypeError => raise e
      end
  end.

(** ** Operands and operators *)

(** What the right operand of an operator can be: another [Time], an [int],
    a [bool] (which is an [int] to [isinstance]), or a value of another
    builtin type, known by the name of its type ("str", "float",
    "NoneType", ...).  None of these types knows how to compare itself with
    a [Time]. *)
Inductive pyval : Type :=
| VTime (t : Time)
| VInt (n : Z)
| VBool (b : bool)
| VOther (type_name : string).

Definition type_name_of (v : pyval) : string :=
  match v with
  | VTime _ => "Time"
  | VInt _ => "int"
  | VBool _ => "bool"
  | VOther name => name
  end.

Definition int_of_bool (b : bool) : Z := if b then 1 else 0.

(** [Time.__add__]. *)
Definition __add__ (self : Time) (other : pyval) : result Time :=
  match other with
  | VTime o =>
      from_seconds ((_total_seconds self + _total_seconds o) mod 86400)
  | VInt n => from_seconds ((_total_seconds self + n) mod 86400)
  | VBool b => from_seconds ((_total_seconds self + int_of_bool b) mod 86400)
  | VOther name =>
      raise (TypeError ("Unsupported operand type(s) for +: 'Time' and '"
                        ++ name ++ "'"))
  end.

(** [Time.__sub__]. *)
Definition __sub__ (self : Time) (other : pyval) : result Time :=
  match other with
  | VTime o =>
      from_seconds ((_total_seconds self - _total_seconds o) mod 86400)
  | VInt n => from_seconds ((_total_seconds self - n) mod 86400)
  | VBool b => from_seconds ((_total_seconds self - int_of_bool b) mod 86400)
  | VOther name =>
      raise (TypeError ("Unsupported operand type(s) for -: 'Time' and '"
                        ++ name ++ "'"))
  end.

(** What a comparison method returns: a truth value, or [NotImplemented]. *)
Inductive cmp_result : Type :=
| Answer (b : bool)
| NotImplemented.

(** [Time.__eq__]. *)
Definition __eq__ (self : Time) (other : pyval) : cmp_result :=
  match other with
  | VTime o => Answer (_total_seconds self =? _total_seconds o)
  | _ => NotImplemented
  end.

(** [Time.__lt__]. *)
Definition __lt__ (self : Time) (other : pyval) : cmp_result :=
  match other with
  | VTime o => Answer (_total_seconds self <? _total_seconds o)
  | _ => NotImplemented
  end.

(** The operator [self == other].  When [__eq__] declines, the interpreter
    asks the other operand, which declines as well, and falls back on
    identity: the operands are distinct objects. *)
Definition py_eq (self : Time) (other : pyval) : bool :=
  match __eq__ self other with
  | Answer b => b
  | NotImplemented => false
  end.

(** The operator [self != other]: the inherited [__ne__] inverts [__eq__],
    with the same fallback. *)
Definition py_ne (self : Time) (other : pyval) : bool :=
  match __eq__ self other with
  | Answer b => negb b
  | NotImplemented => true
  end.

(** The three methods [functools.total_ordering] adds to a class that
    defines [__lt__]. *)
Definition __le__ (self : Time) (other : pyval) : cmp_result :=
  match __lt__ self other with
  | NotImplemented => NotImplemented
  | Answer op_result => Answer (op_result || py_eq self other)
  end.

Definition __gt__ (self : Time) (other : pyval) : cmp_result :=
  match __lt__ self other with
  | NotImplemented => NotImplemented
  | Answer op_result => Answer (negb op_result && py_ne self other)
  end.

Definition __ge__ (self : Time) (other : pyval) : cmp_result :=
  match __lt__ self other with
  | NotImplemented => NotImplemented
  | Answer op_result => Answer (negb op_result)
  end.

(** An ordering operator [self op other]: the method's answer, or, when it
    declines and the other operand declines too, a [TypeError]. *)
Definition py_order (op : string) (method : Time -> pyval -> cmp_result)
    (self : Time) (other : pyval) : result bool :=
  match method self other with
  | Answer b => ret b
  | NotImplemented =>
      raise (TypeError ("'" ++ op ++ "' not supported between instances of "
                        ++ "'Time' and '" ++ type_name_of other ++ "'"))
  end.

Definition py_lt : Time -> pyval -> result bool := py_order "<" __lt__.
Definition py_le : Time -> pyval -> result bool := py_order "<=" __le__.
Definition py_gt : Time -> pyval -> result bool := py_order ">" __gt__.
Definition py_ge : Time -> pyval -> result bool := py_order ">=" __ge__.

(** [Time.__hash__], over the interpreter's hash of an [int]. *)
Definition __hash__ (hash : Z -> Z) (self : Time) : Z :=
  hash (_total_seconds self).

(** [Time.__repr__]. *)
Definition __repr__ (self : Time) : string :=
  "Time(hours=" ++ py_str_int (hours self) ++ ", minutes="
  ++ py_str_int (minutes self) ++ ", seconds=" ++ py_str_int (seconds self)
  ++ ")".

(** ** Vocabulary of the statements *)

(** The text of a range error, as [_validate_range] composes it. *)
Definition range_message (name : string) (lo hi value : Z) : string :=
  name ++ " must be between " ++ py_str_int lo ++ "-" ++ py_str_int hi
  ++ ", got " ++ py_str_int value.

(** Whether an operand is a [Time]. *)
Definition is_time (v : pyval) : bool :=
  match v with VTime _ => true | _ => false end.

(** The character of a decimal digit [d]. *)
Definition digit_char (d : Z) : ascii := ascii_of_nat (48 + Z.to_nat d).

(** A number below 100 as its tens digit and its units digit. *)
Definition two_digits (n : Z) : string :=
  String (digit_char (n / 10)) (String (digit_char (n mod 10)) EmptyString).

(** The text [s] is three fields between two colons, and [int] reads them
    as [h], [m] and [sec]. *)
Definition three_int_fields (s : string) (h m sec : Z) : Prop :=
  exists f1 f2 f3,
    py_split ":" s = [f1; f2; f3]
    /\ py_int f1 = inr h /\ py_int f2 = inr m /\ py_int f3 = inr sec.

(** An exception the interpreter raised, as opposed to one whose text the
    program wrote. *)
Definition raised_by_interpreter (e : exn) : bool :=
  match exn_reason e with
  | Msg _ => false
  | _ => true
  end.

(** How many times the character [c] occurs in [s]. *)
Fixpoint count_char (c : ascii) (s : string) : nat :=
  match s with
  | EmptyString => O
  | String c' rest =>
      if Ascii.eqb c' c then S (count_char c rest) else count_char c rest
  end.

(** The order of Python on triples of integers: by the first components,
    then the second, then the third. *)
Definition tuple_lt (p q : Z * Z * Z) : bool :=
  let '(h1, m1, s1) := p in
  let '(h2, m2, s2) := q in
  (h1 <? h2) || ((h1 =? h2) && ((m1 <? m2) || ((m1 =? m2) && (s1 <? s2)))).

(** ** Checks on concrete inputs *)

Example str_3661 : __str__ (mkTime 3661) = "01:01:01".
Proof. reflexivity. Qed.

Example init_24 :
  __init__ 24 0 0 = inl (ValueError "hours must be between 0-23, got 24").
Proof. reflexivity. Qed.

Example init_negative :
  __init__ (-1) 60 60 = inl (ValueError "hours must be between 0-23, got -1")
  /\ __init__ 0 0 60 = inl (ValueError "seconds must be between 0-59, got 60").
Proof. split; reflexivity. Qed.

Example format_02d_examples :
  format_02d (-5) = "-5" /\ format_02d 123 = "123" /\ format_02d 7 = "07".
Proof. repeat split; reflexivity. Qed.

Example py_split_examples :
  py_split ":" "" = [""] /\ py_split ":" ":" = [""; ""]
  /\ py_split ":" "a::b" = ["a"; ""; "b"] /\ py_split ":" "a:b:" = ["a"; "b"; ""].
Proof. repeat split; reflexivity. Qed.

Example py_int_accepts :
  py_int " 1 " = inr 1 /\ py_int "+1" = inr 1 /\ py_int "-1" = inr (-1)
  /\ py_int "1_0" = inr 10 /\ py_int "007" = inr 7 /\ py_int "-0" = inr 0.
Proof. repeat split; reflexivity. Qed.

Example py_int_refuses :
  py_int "- 1" = invalid_literal "- 1" /\ py_int "_1" = invalid_literal "_1"
  /\ py_int "1_" = invalid_literal "1_" /\ py_int "1__0" = invalid_literal "1__0"
  /\ py_int "" = invalid_literal "" /\ py_int "+" = invalid_literal "+"
  /\ py_int "1 2" = invalid_literal "1 2" /\ py_int "0x10" = invalid_literal "0x10".
Proof. repeat split; reflexivity. Qed.

Example py_int_white_space :
  py_int (String (ascii_of_nat 9) ("1" ++ String (ascii_of_nat 10) "")) = inr 1
  /\ py_int (String (ascii_of_nat 160) "1") = inr 1
  /\ py_int ("1" ++ String (ascii_of_nat 133) "") = inr 1
  /\ py_int (String (ascii_of_nat 28) "1") =
       invalid_literal (String (ascii_of_nat 28) "1").
Proof. repeat split; reflexivity. Qed.

Example py_int_digit_limit :
  py_int (zeros 4300) = inr 0
  /\ py_int (zeros 4301) = inl (Raised KValueError (ExceedsDigitLimit 4301))
  /\ py_int (zeros 4301 ++ "x") =
       inl (Raised KValueError (ExceedsDigitLimit 4301)).
Proof. repeat split; vm_compute; reflexivity. Qed.

Example from_string_examples :
  from_string "1:2:3" = inr (mkTime 3723)
  /\ from_string "1:2" =
       inl (RaisedFrom KValueError (Msg format_message)
              (Raised KValueError (NotEnoughValues 2)))
  /\ from_string "1:2:3:4" =
       inl (RaisedFrom KValueError (Msg format_message)
              (Raised KValueError TooManyValues))
  /\ from_string "a:b:c" =
       inl (RaisedFrom KValueError (Msg format_message)
              (Raised KValueError (InvalidLiteral "a"))).
Proof. repeat split; reflexivity. Qed.

(** ** Range checks and construction *)

Ltac run := unfold bind, ret, raise in *; simpl in *.

Lemma validate_range_ok (value lo hi : Z) (name : string) :
  lo <= value <= hi -> _validate_range value lo hi name = inr tt.
Proof.
  intros [Hlo Hhi]. unfold _validate_range.
  apply Z.leb_le in Hlo. apply Z.leb_le in Hhi.
  rewrite Hlo, Hhi. reflexivity.
Qed.

Lemma validate_range_fail (value lo hi : Z) (name : string) :
  ~ lo <= value <= hi ->
  _validate_range value lo hi name =
    inl (ValueError (range_message name lo hi value)).
Proof.
  intros Hout. unfold _validate_range.
  destruct (Z.leb_spec lo value); destruct (Z.leb_spec value hi);
    simpl; try reflexivity.
  exfalso. apply Hout. split; assumption.
Qed.

Lemma init_in_range (h m s : Z) :
  0 <= h <= 23 -> 0 <= m <= 59 -> 0 <= s <= 59 ->
  __init__ h m s = inr (mkTime (h * 3600 + m * 60 + s)).
Proof.
  intros Hh Hm Hs. unfold __init__.
  rewrite (validate_range_ok h), (validate_range_ok m), (validate_range_ok s)
    by assumption.
  reflexivity.
Qed.

Lemma init_bad_hours (h m s : Z) :
  ~ 0 <= h <= 23 ->
  __init__ h m s = inl (ValueError (range_message "hours" 0 23 h)).
Proof.
  intros Hh. unfold __init__.
  rewrite (validate_range_fail h) by assumption. reflexivity.
Qed.

Lemma init_bad_minutes (h m s : Z) :
  0 <= h <= 23 -> ~ 0 <= m <= 59 ->
  __init__ h m s = inl (ValueError (range_message "minutes" 0 59 m)).
Proof.
  intros Hh Hm. unfold __init__.
  rewrite (validate_range_ok h), (validate_range_fail m) by assumption.
  reflexivity.
Qed.

Lemma init_bad_seconds (h m s : Z) :
  0 <= h <= 23 -> 0 <= m <= 59 -> ~ 0 <= s <= 59 ->
  __init__ h m s = inl (ValueError (range_message "seconds" 0 59 s)).
Proof.
  intros Hh Hm Hs. unfold __init__.
  rewrite (validate_range_ok h), (validate_range_ok m),
    (validate_range_fail s) by assumption.
  reflexivity.
Qed.

(** A successful construction only happens within the three ranges. *)
Lemma init_success_in_range (h m s : Z) (t : Time) :
  __init__ h m s = inr t ->
  0 <= h <= 23 /\ 0 <= m <= 59 /\ 0 <= s <= 59.
Proof.
  intros Hok.
  destruct (Z_le_dec 0 h) as [Hh0|Hh0];
    [destruct (Z_le_dec h 23) as [Hh1|Hh1]|];
    try (rewrite init_bad_hours in Hok by lia; discriminate).
  destruct (Z_le_dec 0 m) as [Hm0|Hm0];
    [destruct (Z_le_dec m 59) as [Hm1|Hm1]|];
    try (rewrite init_bad_minutes in Hok by lia; discriminate).
  destruct (Z_le_dec 0 s) as [Hs0|Hs0];
    [destruct (Z_le_dec s 59) as [Hs1|Hs1]|];
    try (rewrite init_bad_seconds in Hok by lia; discriminate).
  lia.
Qed.

(** Every failure of the constructor is a [ValueError] with a text of the
    program's own. *)
Lemma init_failure_shape (h m s : Z) (e : exn) :
  __init__ h m s = inl e -> exists text, e = ValueError text.
Proof.
  intros Hfail.
  destruct (Z_le_dec 0 h) as [Hh0|Hh0];
    [destruct (Z_le_dec h 23) as [Hh1|Hh1]|];
    try (rewrite init_bad_hours in Hfail by lia; inversion Hfail; eauto).
  destruct (Z_le_dec 0 m) as [Hm0|Hm0];
    [destruct (Z_le_dec m 59) as [Hm1|Hm1]|];
    try (rewrite init_bad_minutes in Hfail by lia; inversion Hfail; eauto).
  destruct (Z_le_dec 0 s) as [Hs0|Hs0];
    [destruct (Z_le_dec s 59) as [Hs1|Hs1]|];
    try (rewrite init_bad_seconds in Hfail by lia; inversion Hfail; eauto).
  rewrite init_in_range in Hfail by lia. discriminate.
Qed.



(** ** Raw seconds *)

Lemma components_in_range (x : Z) :
  0 <= x < 86400 ->
  0 <= x / 3600 <= 23 /\ 0 <= (x mod 3600) / 60 <= 59 /\ 0 <= x mod 60 <= 59.
Proof. intros Hx. Z.div_mod_to_equations. lia. Qed.

Lemma components_recombine (x : Z) :
  x / 3600 * 3600 + (x mod 3600) / 60 * 60 + x mod 60 = x.
Proof. Z.div_mod_to_equations. lia. Qed.

Lemma from_seconds_in_range (x : Z) :
  0 <= x < 86400 -> from_seconds x = inr (mkTime x).
Proof.
  intros Hx. unfold from_seconds.
  destruct (Z.leb_spec 0 x); [|lia]. destruct (Z.ltb_spec x 86400); [|lia].
  simpl. destruct (components_in_range x Hx) as [Hh [Hm Hs]].
  rewrite init_in_range by assumption.
  rewrite components_recombine. reflexivity.
Qed.

Lemma from_seconds_out_of_range (x : Z) :
  ~ 0 <= x < 86400 ->
  from_seconds x =
    inl (ValueError
           "Total seconds must represent a valid 24-hour time (0-86399)").
Proof.
  intros Hx. unfold from_seconds.
  destruct (Z.leb_spec 0 x); destruct (Z.ltb_spec x 86400);
    simpl; try reflexivity.
  exfalso. apply Hx. split; assumption.
Qed.

(** C3. [from_seconds x] succeeds exactly when [0 <= x < 86400]; the
    instance then gives back [x] from [to_seconds] and the triple
    [(x / 3600, (x % 3600) / 60, x % 60)] from [to_tuple]; otherwise the
    call raises a [ValueError]. *)
Theorem from_seconds_spec (x : Z) :
  ((exists t, from_seconds x = inr t /\ to_seconds t = x)
   <-> 0 <= x < 86400)
  /\ (~ 0 <= x < 86400 ->
      exists text, from_seconds x = inl (ValueError text))
  /\ (0 <= x < 86400 ->
      exists t, from_seconds x = inr t
                /\ to_tuple t = (x / 3600, (x mod 3600) / 60, x mod 60)).
Proof.
  split; [split|split].
  - intros [t [Hok _]].
    destruct (Z_le_dec 0 x); [destruct (Z_lt_dec x 86400)|]; try lia;
      rewrite from_seconds_out_of_range in Hok by lia; discriminate.
  - intros Hx. exists (mkTime x).
    split; [apply from_seconds_in_range; assumption | reflexivity].
  - intros Hx. eexists. apply from_seconds_out_of_range. assumption.
  - intros Hx. exists (mkTime x).
    split; [apply from_seconds_in_range; assumption | reflexivity].
Qed.

Lemma from_seconds_spec_witness :
  0 <= 3661 < 86400
  /\ exists t, from_seconds 3661 = inr t
               /\ to_tuple t = (3661 / 3600, (3661 mod 3600) / 60, 3661 mod 60).
Proof.
  split; [lia|].
  apply (proj2 (proj2 (from_seconds_spec 3661))). lia.
Defined.

(** ** Arithmetic on the clock face *)

Lemma from_seconds_mod (z : Z) :
  from_seconds (z mod 86400) = inr (mkTime (z mod 86400)).
Proof. apply from_seconds_in_range. apply Z.mod_pos_bound. lia. Qed.

Lemma from_seconds_valid (x : Z) (t : Time) :
  from_seconds x = inr t -> valid t.
Proof.
  intros Hok.
  destruct (Z_le_dec 0 x); [destruct (Z_lt_dec x 86400)|];
    try (rewrite from_seconds_out_of_range in Hok by lia; discriminate).
  rewrite from_seconds_in_range in Hok by lia.
  inversion Hok. unfold valid. simpl. lia.
Qed.

(** C4. [t + o] never raises when [o] is a [Time] or an [int]: the result
    holds [(t + o) mod 86400] seconds, [o] counting for its own seconds
    when it is a [Time], a count within [0, 86400); one second after
    23:59:59 is midnight. *)
Theorem add_spec (t o : Time) (n : Z) :
  __add__ t (VTime o) =
    inr (mkTime ((_total_seconds t + _total_seconds o) mod 86400))
  /\ __add__ t (VInt n) = inr (mkTime ((_total_seconds t + n) mod 86400))
  /\ 0 <= (_total_seconds t + _total_seconds o) mod 86400 < 86400
  /\ 0 <= (_total_seconds t + n) mod 86400 < 86400
  /\ (exists a b c,
        __init__ 23 59 59 = inr a /\ __init__ 0 0 1 = inr b
        /\ __init__ 0 0 0 = inr c
        /\ __add__ a (VTime b) = inr c /\ py_eq c (VTime c) = true).
Proof.
  split; [|split; [|split; [|split]]].
  - apply from_seconds_mod.
  - apply from_seconds_mod.
  - apply Z.mod_pos_bound. lia.
  - apply Z.mod_pos_bound. lia.
  - exists (mkTime 86399), (mkTime 1), (mkTime 0). repeat split.
Qed.

(** C5. [t - o] for a [Time] or an [int] [o] holds [(t - o) mod 86400]
    seconds, the floored remainder: within [0, 86400) also when [o] is the
    larger; one second before midnight is 23:59:59. *)
Theorem sub_spec (t o : Time) (n : Z) :
  __sub__ t (VTime o) =
    inr (mkTime ((_total_seconds t - _total_seconds o) mod 86400))
  /\ __sub__ t (VInt n) = inr (mkTime ((_total_seconds t - n) mod 86400))
  /\ 0 <= (_total_seconds t - _total_seconds o) mod 86400 < 86400
  /\ 0 <= (_total_seconds t - n) mod 86400 < 86400
  /\ (exists a b c,
        __init__ 0 0 0 = inr a /\ __init__ 0 0 1 = inr b
        /\ __init__ 23 59 59 = inr c
        /\ __sub__ a (VTime b) = inr c /\ py_eq c (VTime c) = true).
Proof.
  split; [|split; [|split; [|split]]].
  - apply from_seconds_mod.
  - apply from_seconds_mod.
  - apply Z.mod_pos_bound. lia.
  - apply Z.mod_pos_bound. lia.
  - exists (mkTime 0), (mkTime 1), (mkTime 86399). repeat split.
Qed.

(** C10. [Time()] with every argument left to its default is midnight:
    zero seconds, the triple (0, 0, 0), the text 00:00:00. *)
Theorem default_is_midnight :
  exists t, Time_call None None None = inr t
            /\ _total_seconds t = 0
            /\ to_tuple t = (0, 0, 0)
            /\ __str__ t = "00:00:00".
Proof. exists (mkTime 0). repeat split. Qed.

(** ** Equality and order *)

(** C8. Two [Time]s are equal exactly when they hold the same seconds, so
    [Time(5, 0, 0) == Time.from_seconds(18000)]; against a value that is not
    a [Time], [__eq__] declines and [==] answers no. *)
Theorem eq_spec (a b : Time) (v : pyval) :
  (py_eq a (VTime b) = true <-> _total_seconds a = _total_seconds b)
  /\ (is_time v = false ->
      __eq__ a v = NotImplemented /\ py_eq a v = false /\ py_ne a v = true)
  /\ (exists x y, __init__ 5 0 0 = inr x /\ from_seconds 18000 = inr y
                  /\ py_eq x (VTime y) = true).
Proof.
  split; [|split].
  - unfold py_eq. simpl. apply Z.eqb_eq.
  - intros Hv. destruct v; try discriminate; repeat split.
  - exists (mkTime 18000), (mkTime 18000). repeat split.
Qed.

Lemma eq_spec_witness :
  is_time (VInt 18000) = false
  /\ __eq__ (mkTime 18000) (VInt 18000) = NotImplemented
  /\ py_eq (mkTime 18000) (VInt 18000) = false
  /\ py_ne (mkTime 18000) (VInt 18000) = true.
Proof.
  split; [reflexivity|].
  apply (proj1 (proj2 (eq_spec (mkTime 18000) (mkTime 0) (VInt 18000)))).
  reflexivity.
Defined.

(** Equal instances hash alike, whatever the hash of an [int] is. *)
Lemma hash_of_equal (hash : Z -> Z) (a b : Time) :
  py_eq a (VTime b) = true -> __hash__ hash a = __hash__ hash b.
Proof.
  unfold py_eq, __hash__. simpl. intros Heq.
  apply Z.eqb_eq in Heq. rewrite Heq. reflexivity.
Qed.

(** C9. Between two [Time]s the four ordering operators answer as the
    order of the integers does on their seconds, which makes them one total
    order; against a value that is not a [Time] each of them raises a
    [TypeError]. *)
Theorem order_spec (a b c : Time) (v : pyval) :
  (py_lt a (VTime b) = inr (_total_seconds a <? _total_seconds b)
   /\ py_le a (VTime b) = inr (_total_seconds a <=? _total_seconds b)
   /\ py_gt a (VTime b) = inr (_total_seconds b <? _total_seconds a)
   /\ py_ge a (VTime b) = inr (_total_seconds b <=? _total_seconds a))
  /\ (py_lt a (VTime b) = inr true <-> _total_seconds a < _total_seconds b)
  /\ py_lt a (VTime a) = inr false
  /\ (py_lt a (VTime b) = inr true -> py_lt b (VTime c) = inr true ->
      py_lt a (VTime c) = inr true)
  /\ (py_lt a (VTime b) = inr true \/ py_eq a (VTime b) = true
      \/ py_lt b (VTime a) = inr true)
  /\ (is_time v = false ->
      exists e1 e2 e3 e4,
        py_lt a v = inl e1 /\ py_le a v = inl e2
        /\ py_gt a v = inl e3 /\ py_ge a v = inl e4
        /\ exn_kind_of e1 = KTypeError /\ exn_kind_of e2 = KTypeError
        /\ exn_kind_of e3 = KTypeError /\ exn_kind_of e4 = KTypeError).
Proof.
  destruct a as [x], b as [y], c as [z].
  unfold py_lt, py_le, py_gt, py_ge, py_order, __le__, __gt__, __ge__,
    py_eq, py_ne, ret, raise. simpl.
  split; [repeat split|split; [|split; [|split; [|split]]]].
  - f_equal. destruct (Z.ltb_spec x y), (Z.eqb_spec x y), (Z.leb_spec x y);
      simpl; try reflexivity; lia.
  - f_equal. destruct (Z.ltb_spec x y), (Z.eqb_spec x y), (Z.ltb_spec y x);
      simpl; try reflexivity; lia.
  - f_equal. destruct (Z.ltb_spec x y), (Z.leb_spec y x);
      simpl; try reflexivity; lia.
  - split; intros H.
    + apply Z.ltb_lt. congruence.
    + apply Z.ltb_lt in H. rewrite H. reflexivity.
  - rewrite Z.ltb_irrefl. reflexivity.
  - intros H1 H2.
    assert (H1' : (x <? y) = true) by congruence.
    assert (H2' : (y <? z) = true) by congruence.
    apply Z.ltb_lt in H1', H2'. f_equal. apply Z.ltb_lt. lia.
  - destruct (Z.ltb_spec x y), (Z.eqb_spec x y), (Z.ltb_spec y x);
      auto; lia.
  - intros Hv. destruct v; try discriminate; simpl;
      do 4 eexists; repeat split.
Qed.

Lemma order_spec_witness :
  is_time (VOther "str") = false
  /\ exists e1 e2 e3 e4,
       py_lt (mkTime 1) (VOther "str") = inl e1
       /\ py_le (mkTime 1) (VOther "str") = inl e2
       /\ py_gt (mkTime 1) (VOther "str") = inl e3
       /\ py_ge (mkTime 1) (VOther "str") = inl e4
       /\ exn_kind_of e1 = KTypeError /\ exn_kind_of e2 = KTypeError
       /\ exn_kind_of e3 = KTypeError /\ exn_kind_of e4 = KTypeError.
Proof.
  split; [reflexivity|].
  apply (proj2 (proj2 (proj2 (proj2 (proj2
    (order_spec (mkTime 1) (mkTime 2) (mkTime 3) (VOther "str"))))))).
  reflexivity.
Defined.

(** ** Rendering *)

(** A boolean property checked on 0..99 holds of every number below 100. *)
Lemma below_100 (P : Z -> bool) :
  forallb (fun k => P (Z.of_nat k)) (seq 0 100) = true ->
  forall n, 0 <= n < 100 -> P n = true.
Proof.
  intros Hall n Hn. rewrite forallb_forall in Hall.
  rewrite <- (Z2Nat.id n) by lia. apply Hall.
  apply in_seq. lia.
Qed.

Lemma format_02d_two_digits (n : Z) :
  0 <= n < 100 -> format_02d n = two_digits n.
Proof.
  intros Hn. apply String.eqb_eq.
  revert n Hn.
  apply (below_100 (fun n => String.eqb (format_02d n) (two_digits n))).
  vm_compute. reflexivity.
Qed.

Lemma str_two_digits (t : Time) :
  valid t ->
  __str__ t =
    two_digits (hours t) ++ ":" ++ two_digits (minutes t) ++ ":"
    ++ two_digits (seconds t).
Proof.
  intros Hv. unfold __str__.
  destruct (components_in_range _ Hv) as [Hh [Hm Hs]].
  fold (hours t) in Hh. fold (minutes t) in Hm. fold (seconds t) in Hs.
  rewrite !format_02d_two_digits by lia. reflexivity.
Qed.

(** C6. The text of a valid [Time] is HH:MM:SS: the tens and units digits
    of its hours, a colon, those of its minutes, a colon, those of its
    seconds, eight characters in all; the three components lie within
    0..23, 0..59 and 0..59, and 3661 seconds read 01:01:01. *)
Theorem str_spec (t : Time) :
  valid t ->
  __str__ t =
    two_digits (hours t) ++ ":" ++ two_digits (minutes t) ++ ":"
    ++ two_digits (seconds t)
  /\ String.length (__str__ t) = 8%nat
  /\ 0 <= hours t <= 23 /\ 0 <= minutes t <= 59 /\ 0 <= seconds t <= 59
  /\ __str__ (mkTime 3661) = "01:01:01".
Proof.
  intros Hv. rewrite (str_two_digits t Hv).
  split; [reflexivity|]. split; [reflexivity|].
  destruct (components_in_range _ Hv) as [Hh [Hm Hs]].
  repeat split; try apply Hh; try apply Hm; try apply Hs.
Qed.

Lemma valid_3661 : valid (mkTime 3661).
Proof. unfold valid. simpl. lia. Defined.

Lemma str_spec_witness :
  valid (mkTime 3661)
  /\ __str__ (mkTime 3661) =
       two_digits (hours (mkTime 3661)) ++ ":"
       ++ two_digits (minutes (mkTime 3661)) ++ ":"
       ++ two_digits (seconds (mkTime 3661)).
Proof.
  split; [exact valid_3661|].
  apply (proj1 (str_spec (mkTime 3661) valid_3661)).
Defined.

(** ** Parsing *)

Lemma py_int_two_digits (n : Z) :
  0 <= n < 100 -> py_int (two_digits n) = inr n.
Proof.
  intros Hn.
  assert (Hb : (match py_int (two_digits n) with
                | inr v => v =? n
                | inl _ => false
                end) = true).
  { revert n Hn.
    apply (below_100 (fun n => match py_int (two_digits n) with
                               | inr v => v =? n
                               | inl _ => false
                               end)).
    vm_compute. reflexivity. }
  destruct (py_int (two_digits n)) as [e|v]; [discriminate|].
  apply Z.eqb_eq in Hb. subst v. reflexivity.
Qed.

Lemma digit_char_not_colon (d : Z) :
  0 <= d <= 9 -> Ascii.eqb (digit_char d) ":" = false.
Proof.
  intros Hd. revert d Hd.
  assert (H : forall n, 0 <= n < 100 ->
            (if n <=? 9 then negb (Ascii.eqb (digit_char n) ":") else true)
            = true).
  { apply (below_100 (fun n => if n <=? 9
                               then negb (Ascii.eqb (digit_char n) ":")
                               else true)).
    vm_compute. reflexivity. }
  intros d Hd. specialize (H d ltac:(lia)).
  destruct (Z.leb_spec d 9); [|lia].
  apply negb_true_iff in H. exact H.
Qed.

Lemma py_split_three_pairs (a b c d e f : ascii) :
  Ascii.eqb a ":" = false -> Ascii.eqb b ":" = false ->
  Ascii.eqb c ":" = false -> Ascii.eqb d ":" = false ->
  Ascii.eqb e ":" = false -> Ascii.eqb f ":" = false ->
  py_split ":"
    (String a (String b (String ":"
       (String c (String d (String ":" (String e (String f ""))))))))
  = [String a (String b ""); String c (String d ""); String e (String f "")].
Proof.
  intros Ha Hb Hc Hd He Hf. cbn [py_split].
  rewrite Ha, Hb, Hc, Hd, He, Hf. reflexivity.
Qed.

Lemma py_split_str (t : Time) :
  valid t ->
  py_split ":" (__str__ t) =
    [two_digits (hours t); two_digits (minutes t); two_digits (seconds t)].
Proof.
  intros Hv. rewrite (str_two_digits t Hv).
  destruct (components_in_range _ Hv) as [Hh [Hm Hs]].
  fold (hours t) in Hh. fold (minutes t) in Hm. fold (seconds t) in Hs.
  unfold two_digits. cbn [append].
  apply py_split_three_pairs; apply digit_char_not_colon;
    Z.div_mod_to_equations; lia.
Qed.

Lemma unpack3_three (f1 f2 f3 : string) (h m s : Z) :
  py_int f1 = inr h -> py_int f2 = inr m -> py_int f3 = inr s ->
  unpack3 [f1; f2; f3] = inr (h, m, s).
Proof.
  intros H1 H2 H3. unfold unpack3, map_int_next.
  rewrite H1. cbn [bind ret]. rewrite H2. cbn [bind ret].
  rewrite H3. reflexivity.
Qed.

(** C7. Parsing the text of a valid [Time] gives that [Time] back. *)
Theorem from_string_str (t : Time) :
  valid t -> from_string (__str__ t) = inr t.
Proof.
  intros Hv. unfold from_string.
  rewrite (py_split_str t Hv).
  destruct (components_in_range _ Hv) as [Hh [Hm Hs]].
  fold (hours t) in Hh. fold (minutes t) in Hm. fold (seconds t) in Hs.
  rewrite (unpack3_three _ _ _ (hours t) (minutes t) (seconds t))
    by (apply py_int_two_digits; lia).
  cbn [bind].
  rewrite init_in_range by assumption.
  unfold hours, minutes, seconds. rewrite components_recombine.
  destruct t. reflexivity.
Qed.

Lemma valid_86399 : valid (mkTime 86399).
Proof. unfold valid. simpl. lia. Defined.

Lemma from_string_str_witness :
  valid (mkTime 86399)
  /\ from_string (__str__ (mkTime 86399)) = inr (mkTime 86399).
Proof.
  split; [exact valid_86399|].
  apply (from_string_str (mkTime 86399) valid_86399).
Defined.

(** ** Failures of [from_string] *)

Lemma py_int_failure (s : string) (e : exn) :
  py_int s = inl e ->
  exn_kind_of e = KValueError /\ raised_by_interpreter e = true.
Proof.
  unfold py_int, invalid_literal, raise, ret. intros H.
  repeat match type of H with
         | context [match ?x with _ => _ end] => destruct x
         end;
    inversion H; split; reflexivity.
Qed.

Lemma unpack3_ok_iff (fields : list string) (h m sec : Z) :
  unpack3 fields = inr (h, m, sec) <->
  exists f1 f2 f3,
    fields = [f1; f2; f3]
    /\ py_int f1 = inr h /\ py_int f2 = inr m /\ py_int f3 = inr sec.
Proof.
  split.
  - unfold unpack3, map_int_next. intros H.
    destruct fields as [|f1 [|f2 [|f3 [|f4 more]]]]; run;
      try discriminate;
      destruct (py_int f1) as [e1|v1] eqn:E1; run; try discriminate;
      try (destruct (py_int f2) as [e2|v2] eqn:E2; run; try discriminate);
      try (destruct (py_int f3) as [e3|v3] eqn:E3; run; try discriminate);
      try (destruct (py_int f4) as [e4|v4] eqn:E4; run; try discriminate).
    inversion H. subst. exists f1, f2, f3. repeat split; assumption.
  - intros [f1 [f2 [f3 [Hf [H1 [H2 H3]]]]]]. subst fields.
    apply unpack3_three; assumption.
Qed.

Lemma unpack3_failure (fields : list string) (e : exn) :
  unpack3 fields = inl e ->
  exn_kind_of e = KValueError /\ raised_by_interpreter e = true.
Proof.
  unfold unpack3, map_int_next. intros H.
  destruct fields as [|f1 [|f2 [|f3 [|f4 more]]]]; run;
    try (inversion H; split; reflexivity);
    destruct (py_int f1) as [e1|v1] eqn:E1; run;
    try (inversion H; subst; eapply py_int_failure; eassumption);
    try (inversion H; split; reflexivity);
    destruct (py_int f2) as [e2|v2] eqn:E2; run;
    try (inversion H; subst; eapply py_int_failure; eassumption);
    try (inversion H; split; reflexivity);
    destruct (py_int f3) as [e3|v3] eqn:E3; run;
    try (inversion H; subst; eapply py_int_failure; eassumption);
    try (inversion H; split; reflexivity);
    destruct (py_int f4) as [e4|v4] eqn:E4; run;
    try (inversion H; subst; eapply py_int_failure; eassumption);
    try (inversion H; split; reflexivity).
Qed.

(** What [from_string] does in terms of its two stages. *)
Lemma from_string_unpack_failure (s : string) (e : exn) :
  unpack3 (py_split ":" s) = inl e ->
  from_string s = inl (RaisedFrom KValueError (Msg format_message) e).
Proof.
  intros H. unfold from_string. rewrite H. cbn [bind].
  destruct (unpack3_failure _ _ H) as [Hk _]. rewrite Hk. reflexivity.
Qed.

Lemma from_string_init (s : string) (h m sec : Z) :
  unpack3 (py_split ":" s) = inr (h, m, sec) ->
  from_string s =
    match __init__ h m sec with
    | inr t => inr t
    | inl e => inl (RaisedFrom KValueError (Msg format_message) e)
    end.
Proof.
  intros H. unfold from_string. rewrite H. cbn [bind].
  destruct (__init__ h m sec) as [e|t] eqn:E; [|reflexivity].
  destruct (init_failure_shape _ _ _ _ E) as [text He]. subst e.
  reflexivity.
Qed.

(** C1, as the code has it.  A text that is not three colon-separated
    fields that [int] reads makes [from_string] raise the [ValueError] of
    the format message, from the interpreter's own error.  A text whose
    three fields are read but of which one is out of range makes it raise
    that same [ValueError] with that same message, from the [ValueError]
    of the constructor: the range error is the cause, it is not what the
    call raises.  The cause tells the two cases apart.  Three fields within
    their ranges give the [Time]. *)
Theorem from_string_spec (s : string) :
  ((forall h m sec, ~ three_int_fields s h m sec) ->
   exists cause,
     from_string s = inl (RaisedFrom KValueError (Msg format_message) cause)
     /\ raised_by_interpreter cause = true)
  /\ (forall h m sec,
        three_int_fields s h m sec ->
        ~ (0 <= h <= 23 /\ 0 <= m <= 59 /\ 0 <= sec <= 59) ->
        exists cause,
          __init__ h m sec = inl cause
          /\ from_string s =
               inl (RaisedFrom KValueError (Msg format_message) cause)
          /\ raised_by_interpreter cause = false)
  /\ (forall h m sec,
        three_int_fields s h m sec ->
        0 <= h <= 23 /\ 0 <= m <= 59 /\ 0 <= sec <= 59 ->
        from_string s = inr (mkTime (h * 3600 + m * 60 + sec))).
Proof.
  split; [|split].
  - intros Hnot.
    destruct (unpack3 (py_split ":" s)) as [e|[[h m] sec]] eqn:E.
    + exists e. split; [apply from_string_unpack_failure; assumption|].
      apply (unpack3_failure _ _ E).
    + exfalso. apply (Hnot h m sec). apply unpack3_ok_iff. assumption.
  - intros h m sec Hf Hout. apply unpack3_ok_iff in Hf.
    rewrite (from_string_init s h m sec Hf).
    destruct (__init__ h m sec) as [e|t] eqn:E.
    + exists e. split; [reflexivity|]. split; [reflexivity|].
      destruct (init_failure_shape _ _ _ _ E) as [text He]. subst e.
      reflexivity.
    + exfalso. apply Hout. exact (init_success_in_range _ _ _ _ E).
  - intros h m sec Hf [Hh [Hm Hs]]. apply unpack3_ok_iff in Hf.
    rewrite (from_string_init s h m sec Hf).
    rewrite init_in_range by assumption. reflexivity.
Qed.

Lemma three_int_fields_24 : three_int_fields "24:00:00" 24 0 0.
Proof. exists "24", "00", "00". repeat split. Defined.

Lemma no_int_fields_abc : forall h m sec, ~ three_int_fields "a:b:c" h m sec.
Proof.
  intros h m sec [f1 [f2 [f3 [Hsplit [H1 _]]]]].
  vm_compute in Hsplit. inversion Hsplit. subst f1.
  vm_compute in H1. discriminate H1.
Defined.

Lemma three_int_fields_123 : three_int_fields "1:2:3" 1 2 3.
Proof. exists "1", "2", "3". repeat split. Defined.

Lemma from_string_spec_witness :
  ((forall h m sec, ~ three_int_fields "a:b:c" h m sec)
   /\ exists cause,
        from_string "a:b:c" =
          inl (RaisedFrom KValueError (Msg format_message) cause)
        /\ raised_by_interpreter cause = true)
  /\ (three_int_fields "24:00:00" 24 0 0
      /\ ~ (0 <= 24 <= 23 /\ 0 <= 0 <= 59 /\ 0 <= 0 <= 59)
      /\ exists cause,
           __init__ 24 0 0 = inl cause
           /\ from_string "24:00:00" =
                inl (RaisedFrom KValueError (Msg format_message) cause)
           /\ raised_by_interpreter cause = false)
  /\ (three_int_fields "1:2:3" 1 2 3
      /\ (0 <= 1 <= 23 /\ 0 <= 2 <= 59 /\ 0 <= 3 <= 59)
      /\ from_string "1:2:3" = inr (mkTime (1 * 3600 + 2 * 60 + 3))).
Proof.
  split; [|split].
  - split; [exact no_int_fields_abc|].
    apply (proj1 (from_string_spec "a:b:c") no_int_fields_abc).
  - split; [exact three_int_fields_24|]. split; [lia|].
    apply (proj1 (proj2 (from_string_spec "24:00:00")) 24 0 0
             three_int_fields_24).
    lia.
  - split; [exact three_int_fields_123|]. split; [lia|].
    apply (proj2 (proj2 (from_string_spec "1:2:3")) 1 2 3
             three_int_fields_123).
    lia.
Defined.

(** C1, as the claim has it, fails on 24:00:00: the three fields are read
    as 24, 0 and 0, the constructor refuses the hours, and what
    [from_string] raises is not the constructor's range error but the
    format error, with the very message it has for a text it cannot
    read. *)
Lemma from_string_range_error_not_propagated :
  three_int_fields "24:00:00" 24 0 0
  /\ __init__ 24 0 0 = inl (ValueError "hours must be between 0-23, got 24")
  /\ from_string "24:00:00" <> __init__ 24 0 0
  /\ from_string "24:00:00" =
       inl (RaisedFrom KValueError
              (Msg "Time string must be in HH:MM:SS format")
              (ValueError "hours must be between 0-23, got 24"))
  /\ from_string "a:b:c" =
       inl (RaisedFrom KValueError
              (Msg "Time string must be in HH:MM:SS format")
              (Raised KValueError (InvalidLiteral "a"))).
Proof.
  split; [exact three_int_fields_24|].
  split; [reflexivity|]. split; [discriminate|].
  split; reflexivity.
Qed.

(** * Further properties of the class *)

(** ** Components *)

Lemma to_tuple_of_components (h m s : Z) :
  0 <= h <= 23 -> 0 <= m <= 59 -> 0 <= s <= 59 ->
  to_tuple (mkTime (h * 3600 + m * 60 + s)) = (h, m, s).
Proof.
  intros Hh Hm Hs. unfold to_tuple, hours, minutes, seconds. simpl.
  assert (H1 : (h * 3600 + m * 60 + s) / 3600 = h)
    by (Z.div_mod_to_equations; lia).
  assert (H2 : (h * 3600 + m * 60 + s) mod 3600 = m * 60 + s)
    by (Z.div_mod_to_equations; lia).
  assert (H3 : (m * 60 + s) / 60 = m) by (Z.div_mod_to_equations; lia).
  assert (H4 : (h * 3600 + m * 60 + s) mod 60 = s)
    by (Z.div_mod_to_equations; lia).
  rewrite H1, H2, H3, H4. reflexivity.
Qed.

Lemma init_valid (h m s : Z) (t : Time) : __init__ h m s = inr t -> valid t.
Proof.
  intros Hok.
  destruct (init_success_in_range h m s t Hok) as [Hh [Hm Hs]].
  rewrite init_in_range in Hok by assumption.
  inversion Hok. unfold valid. simpl. lia.
Qed.

Lemma init_components (h m s : Z) (t : Time) :
  __init__ h m s = inr t -> to_tuple t = (h, m, s).
Proof.
  intros Hok.
  destruct (init_success_in_range h m s t Hok) as [Hh [Hm Hs]].
  rewrite init_in_range in Hok by assumption.
  inversion Hok. apply to_tuple_of_components; assumption.
Qed.

(** X1. A [Time] built from components in range gives those very
    components back, from [to_tuple] and from the three properties. *)
Theorem to_tuple_init (h m s : Z) (t : Time) :
  __init__ h m s = inr t ->
  to_tuple t = (h, m, s) /\ hours t = h /\ minutes t = m /\ seconds t = s.
Proof.
  intros Hok. pose proof (init_components h m s t Hok) as Ht.
  split; [exact Ht|].
  unfold to_tuple in Ht. inversion Ht. repeat split; reflexivity.
Qed.

Lemma to_tuple_init_witness :
  __init__ 23 59 58 = inr (mkTime 86398)
  /\ to_tuple (mkTime 86398) = (23, 59, 58).
Proof.
  split; [reflexivity|].
  apply (proj1 (to_tuple_init 23 59 58 (mkTime 86398) eq_refl)).
Defined.

(** X2. A valid [Time] is rebuilt from what it gives out: the constructor
    on its three components, and [from_seconds] on its seconds, both give
    it back. *)
Theorem rebuild_from_parts (t : Time) :
  valid t ->
  __init__ (hours t) (minutes t) (seconds t) = inr t
  /\ from_seconds (to_seconds t) = inr t.
Proof.
  intros Hv. destruct (components_in_range _ Hv) as [Hh [Hm Hs]].
  destruct t as [x]. unfold valid in Hv. simpl in *. split.
  - unfold hours, minutes, seconds. simpl.
    rewrite init_in_range by assumption.
    rewrite components_recombine. reflexivity.
  - unfold to_seconds. simpl. apply from_seconds_in_range. assumption.
Qed.

Lemma rebuild_from_parts_witness :
  valid (mkTime 3661)
  /\ __init__ (hours (mkTime 3661)) (minutes (mkTime 3661))
       (seconds (mkTime 3661)) = inr (mkTime 3661)
  /\ from_seconds (to_seconds (mkTime 3661)) = inr (mkTime 3661).
Proof.
  split; [exact valid_3661|].
  apply (rebuild_from_parts (mkTime 3661) valid_3661).
Defined.

(** ** The invariant *)

Lemma from_string_valid (s : string) (t : Time) :
  from_string s = inr t -> valid t.
Proof.
  intros Hok.
  destruct (unpack3 (py_split ":" s)) as [e|[[h m] sec]] eqn:E.
  - rewrite (from_string_unpack_failure s e E) in Hok. discriminate.
  - rewrite (from_string_init s h m sec E) in Hok.
    destruct (__init__ h m sec) as [e|t'] eqn:Ei; [discriminate|].
    inversion Hok. subst t'. exact (init_valid h m sec t Ei).
Qed.

Lemma add_valid (a : Time) (v : pyval) (t : Time) :
  __add__ a v = inr t -> valid t.
Proof.
  destruct v; simpl; intros Hok;
    try (exact (from_seconds_valid _ _ Hok)); discriminate.
Qed.

Lemma sub_valid (a : Time) (v : pyval) (t : Time) :
  __sub__ a v = inr t -> valid t.
Proof.
  destruct v; simpl; intros Hok;
    try (exact (from_seconds_valid _ _ Hok)); discriminate.
Qed.

(** X3. Every [Time] that a constructor or an arithmetic operator returns
    holds a second count within [0, 86400), whatever the arguments. *)
Theorem results_are_valid (t : Time) :
  (forall h m s, __init__ h m s = inr t -> valid t)
  /\ (forall x, from_seconds x = inr t -> valid t)
  /\ (forall text, from_string text = inr t -> valid t)
  /\ (forall a v, __add__ a v = inr t -> valid t)
  /\ (forall a v, __sub__ a v = inr t -> valid t).
Proof.
  split; [|split; [|split; [|split]]].
  - intros h m s. apply init_valid.
  - intros x. apply from_seconds_valid.
  - intros text. apply from_string_valid.
  - intros a v. apply add_valid.
  - intros a v. apply sub_valid.
Qed.

Lemma results_are_valid_witness :
  __sub__ (mkTime (-5)) (VInt 100000) = inr (mkTime 72795)
  /\ valid (mkTime 72795).
Proof.
  split; [reflexivity|].
  apply (proj2 (proj2 (proj2 (proj2 (results_are_valid (mkTime 72795)))))
           (mkTime (-5)) (VInt 100000)).
  reflexivity.
Defined.

(** X4. The [repr] of a [Time] built from [h], [m] and [s] spells out that
    construction, each number in plain decimal. *)
Theorem repr_of_init (h m s : Z) (t : Time) :
  __init__ h m s = inr t ->
  __repr__ t =
    "Time(hours=" ++ py_str_int h ++ ", minutes=" ++ py_str_int m
    ++ ", seconds=" ++ py_str_int s ++ ")".
Proof.
  intros Hok. pose proof (init_components h m s t Hok) as Ht.
  unfold to_tuple in Ht. injection Ht as Hh Hm Hs.
  unfold __repr__. rewrite Hh, Hm, Hs. reflexivity.
Qed.

Lemma repr_of_init_witness :
  __init__ 1 1 1 = inr (mkTime 3661)
  /\ __repr__ (mkTime 3661) = "Time(hours=1, minutes=1, seconds=1)".
Proof.
  split; [reflexivity|].
  apply (repr_of_init 1 1 1 (mkTime 3661) eq_refl).
Defined.

(** ** Laws of the clock-face arithmetic *)

Lemma add_int_eq (t : Time) (n : Z) :
  __add__ t (VInt n) = inr (mkTime ((_total_seconds t + n) mod 86400)).
Proof. apply from_seconds_mod. Qed.

Lemma sub_int_eq (t : Time) (n : Z) :
  __sub__ t (VInt n) = inr (mkTime ((_total_seconds t - n) mod 86400)).
Proof. apply from_seconds_mod. Qed.

Lemma add_time_eq (t o : Time) :
  __add__ t (VTime o) =
    inr (mkTime ((_total_seconds t + _total_seconds o) mod 86400)).
Proof. apply from_seconds_mod. Qed.

Lemma sub_time_eq (t o : Time) :
  __sub__ t (VTime o) =
    inr (mkTime ((_total_seconds t - _total_seconds o) mod 86400)).
Proof. apply from_seconds_mod. Qed.

(** X5. On a valid [Time], adding then subtracting the same operand, or
    subtracting then adding it, gives the [Time] back, for an [int] of any
    size and sign and for a [Time]. *)
Theorem add_sub_cancel (t o : Time) (n : Z) :
  valid t ->
  (r <- __add__ t (VInt n) ;; __sub__ r (VInt n)) = inr t
  /\ (r <- __sub__ t (VInt n) ;; __add__ r (VInt n)) = inr t
  /\ (r <- __add__ t (VTime o) ;; __sub__ r (VTime o)) = inr t
  /\ (r <- __sub__ t (VTime o) ;; __add__ r (VTime o)) = inr t.
Proof.
  intros Hv. destruct t as [x], o as [y]. unfold valid in Hv. simpl in Hv.
  rewrite add_int_eq, sub_int_eq, add_time_eq, sub_time_eq. cbn [bind].
  rewrite add_int_eq, sub_int_eq, add_time_eq, sub_time_eq. simpl.
  rewrite !Zminus_mod_idemp_l, !Zplus_mod_idemp_l.
  replace (x + n - n) with x by lia. replace (x - n + n) with x by lia.
  replace (x + y - y) with x by lia. replace (x - y + y) with x by lia.
  rewrite Z.mod_small by lia. repeat split.
Qed.

Lemma add_sub_cancel_witness :
  valid (mkTime 3661)
  /\ (r <- __add__ (mkTime 3661) (VInt 100000) ;; __sub__ r (VInt 100000))
     = inr (mkTime 3661).
Proof.
  split; [exact valid_3661|].
  apply (proj1 (add_sub_cancel (mkTime 3661) (mkTime 0) 100000 valid_3661)).
Defined.

(** X6. Addition of two [Time]s does not depend on their order, and a sum
    of three does not depend on which two are added first. *)
Theorem add_comm_assoc (a b c : Time) :
  __add__ a (VTime b) = __add__ b (VTime a)
  /\ (r <- __add__ a (VTime b) ;; __add__ r (VTime c))
     = (r <- __add__ b (VTime c) ;; __add__ a (VTime r)).
Proof.
  destruct a as [x], b as [y], c as [z]. split.
  - rewrite !add_time_eq. simpl. rewrite (Z.add_comm x y). reflexivity.
  - rewrite !add_time_eq. cbn [bind]. rewrite !add_time_eq. simpl.
    rewrite Zplus_mod_idemp_l, Zplus_mod_idemp_r, Z.add_assoc. reflexivity.
Qed.

(** X7. Adding or subtracting zero seconds leaves a valid [Time] as it is,
    and whole days do not count: [n] and [n + 86400 * k] seconds give the
    same sum and the same difference. *)
Theorem add_zero_and_days (t : Time) (n k : Z) :
  (valid t -> __add__ t (VInt 0) = inr t /\ __sub__ t (VInt 0) = inr t)
  /\ __add__ t (VInt (n + 86400 * k)) = __add__ t (VInt n)
  /\ __sub__ t (VInt (n + 86400 * k)) = __sub__ t (VInt n).
Proof.
  destruct t as [x]. split; [|split].
  - intros Hv. unfold valid in Hv. simpl in Hv.
    rewrite add_int_eq, sub_int_eq. simpl.
    rewrite Z.add_0_r, Z.sub_0_r, Z.mod_small by lia. split; reflexivity.
  - rewrite !add_int_eq. cbn [_total_seconds]. do 2 f_equal.
    replace (x + (n + 86400 * k)) with (x + n + k * 86400) by lia.
    apply Z_mod_plus_full.
  - rewrite !sub_int_eq. cbn [_total_seconds]. do 2 f_equal.
    replace (x - (n + 86400 * k)) with (x - n + (- k) * 86400) by lia.
    apply Z_mod_plus_full.
Qed.

Lemma add_zero_and_days_witness :
  valid (mkTime 86399)
  /\ __add__ (mkTime 86399) (VInt 0) = inr (mkTime 86399)
  /\ __sub__ (mkTime 86399) (VInt 0) = inr (mkTime 86399).
Proof.
  split; [exact valid_86399|].
  apply (proj1 (add_zero_and_days (mkTime 86399) 0 0) valid_86399).
Defined.

(** X8. The only way [+] and [-] fail is on an operand that is neither a
    [Time] nor an [int]: the error is then the [TypeError] naming the
    operand's type, never a [ValueError] for a sum or a difference out of
    the day. *)
Theorem arithmetic_failure (t : Time) (v : pyval) (e : exn) :
  (__add__ t v = inl e ->
   exists name,
     v = VOther name
     /\ e = TypeError ("Unsupported operand type(s) for +: 'Time' and '"
                       ++ name ++ "'"))
  /\ (__sub__ t v = inl e ->
      exists name,
        v = VOther name
        /\ e = TypeError ("Unsupported operand type(s) for -: 'Time' and '"
                          ++ name ++ "'")).
Proof.
  split; intros Hfail; destruct v as [o|n|b|name]; simpl in Hfail;
    try (rewrite from_seconds_mod in Hfail; discriminate);
    exists name; (split; [reflexivity|]); inversion Hfail; reflexivity.
Qed.

Lemma arithmetic_failure_witness :
  __add__ (mkTime 0) (VOther "float") =
    inl (TypeError "Unsupported operand type(s) for +: 'Time' and 'float'")
  /\ exists name,
       VOther "float" = VOther name
       /\ TypeError "Unsupported operand type(s) for +: 'Time' and 'float'"
          = TypeError ("Unsupported operand type(s) for +: 'Time' and '"
                       ++ name ++ "'").
Proof.
  split; [reflexivity|].
  apply (proj1 (arithmetic_failure (mkTime 0) (VOther "float")
                  (TypeError
                     "Unsupported operand type(s) for +: 'Time' and 'float'"))).
  reflexivity.
Defined.

(** X9. Subtracting is adding the opposite number of seconds, for an [int]
    and for a [Time]; a [Time] minus itself is midnight. *)
Theorem sub_as_add (t o : Time) (n : Z) :
  __sub__ t (VInt n) = __add__ t (VInt (- n))
  /\ __sub__ t (VTime o) = __add__ t (VInt (- _total_seconds o))
  /\ __sub__ t (VTime t) = inr (mkTime 0).
Proof.
  split; [|split].
  - reflexivity.
  - reflexivity.
  - rewrite sub_time_eq. rewrite Z.sub_diag. reflexivity.
Qed.

(** X10. Adding less than a day of seconds to a valid [Time] gives a
    [Time] that compares below the first exactly when the sum went past
    midnight. *)
Theorem add_wraps_iff_earlier (t : Time) (n : Z) :
  valid t -> 0 <= n < 86400 ->
  exists r,
    __add__ t (VInt n) = inr r
    /\ (py_lt r (VTime t) = inr true <-> 86400 <= _total_seconds t + n).
Proof.
  intros Hv Hn. destruct t as [x]. unfold valid in Hv. simpl in Hv.
  exists (mkTime ((x + n) mod 86400)). split; [apply add_int_eq|].
  unfold py_lt, py_order, ret. simpl. split.
  - intros H. assert (Hlt : ((x + n) mod 86400 <? x) = true) by congruence.
    apply Z.ltb_lt in Hlt.
    destruct (Z_lt_dec (x + n) 86400) as [Hs|Hs]; [|lia].
    rewrite Z.mod_small in Hlt by lia. lia.
  - intros Hw. f_equal. apply Z.ltb_lt.
    replace (x + n) with (x + n - 86400 + 1 * 86400) by lia.
    rewrite Z_mod_plus_full. rewrite Z.mod_small by lia. lia.
Qed.

Lemma add_wraps_iff_earlier_witness :
  valid (mkTime 86399) /\ 0 <= 2 < 86400
  /\ exists r,
       __add__ (mkTime 86399) (VInt 2) = inr r
       /\ (py_lt r (VTime (mkTime 86399)) = inr true <-> 86400 <= 86399 + 2).
Proof.
  split; [exact valid_86399|]. split; [lia|].
  apply (add_wraps_iff_earlier (mkTime 86399) 2 valid_86399). lia.
Defined.

(** ** Text *)

Lemma py_split_length (sep : ascii) (s : string) :
  List.length (py_split sep s) = S (count_char sep s).
Proof.
  induction s as [|c rest IH]; [reflexivity|].
  cbn [py_split count_char].
  destruct (Ascii.eqb c sep).
  - cbn [List.length]. rewrite IH. reflexivity.
  - destruct (py_split sep rest) as [|field fields];
      [discriminate IH | exact IH].
Qed.

Lemma py_split_no_sep (sep : ascii) (s : string) :
  count_char sep s = O -> py_split sep s = [s].
Proof.
  induction s as [|c rest IH]; [reflexivity|].
  cbn [py_split count_char].
  destruct (Ascii.eqb c sep); [discriminate|].
  intros H. rewrite (IH H). reflexivity.
Qed.

Lemma py_split_app (sep : ascii) (a b : string) :
  count_char sep a = O ->
  py_split sep (a ++ String sep b) = a :: py_split sep b.
Proof.
  induction a as [|c rest IH].
  - intros _. cbn [append py_split]. rewrite Ascii.eqb_refl. reflexivity.
  - cbn [append py_split count_char].
    destruct (Ascii.eqb c sep); [discriminate|].
    intros H. rewrite (IH H). reflexivity.
Qed.

(** X11. A text that does not hold exactly two colons is refused by
    [from_string], with the format error. *)
Theorem from_string_needs_two_colons (s : string) :
  count_char ":" s <> 2%nat ->
  exists cause,
    from_string s = inl (RaisedFrom KValueError (Msg format_message) cause).
Proof.
  intros Hcount.
  destruct (unpack3 (py_split ":" s)) as [e|[[h m] sec]] eqn:E.
  - exists e. apply from_string_unpack_failure. assumption.
  - exfalso. apply Hcount.
    apply unpack3_ok_iff in E. destruct E as [f1 [f2 [f3 [Hsplit _]]]].
    pose proof (py_split_length ":" s) as Hlen.
    rewrite Hsplit in Hlen. cbn [List.length] in Hlen. congruence.
Qed.

Lemma from_string_needs_two_colons_witness :
  count_char ":" "12:30" <> 2%nat
  /\ exists cause,
       from_string "12:30" =
         inl (RaisedFrom KValueError (Msg format_message) cause).
Proof.
  assert (H : count_char ":" "12:30" <> 2%nat) by (vm_compute; discriminate).
  split; [exact H|].
  apply (from_string_needs_two_colons "12:30" H).
Defined.

(** X12. Two valid [Time]s with the same text are the same [Time]. *)
Theorem str_injective (a b : Time) :
  valid a -> valid b -> __str__ a = __str__ b -> a = b.
Proof.
  intros Ha Hb Heq.
  pose proof (py_split_str a Ha) as Sa. pose proof (py_split_str b Hb) as Sb.
  rewrite Heq in Sa. rewrite Sa in Sb.
  pose proof (f_equal (fun l => nth 0 l "") Sb) as Eh.
  pose proof (f_equal (fun l => nth 1 l "") Sb) as Em.
  pose proof (f_equal (fun l => nth 2 l "") Sb) as Es.
  cbn [nth] in Eh, Em, Es.
  destruct (components_in_range _ Ha) as [Ah [Am As]].
  destruct (components_in_range _ Hb) as [Bh [Bm Bs]].
  fold (hours a) in Ah. fold (minutes a) in Am. fold (seconds a) in As.
  fold (hours b) in Bh. fold (minutes b) in Bm. fold (seconds b) in Bs.
  assert (Hh : hours a = hours b).
  { pose proof (py_int_two_digits (hours a) ltac:(lia)) as P.
    rewrite Eh, py_int_two_digits in P by lia. congruence. }
  assert (Hm : minutes a = minutes b).
  { pose proof (py_int_two_digits (minutes a) ltac:(lia)) as P.
    rewrite Em, py_int_two_digits in P by lia. congruence. }
  assert (Hs : seconds a = seconds b).
  { pose proof (py_int_two_digits (seconds a) ltac:(lia)) as P.
    rewrite Es, py_int_two_digits in P by lia. congruence. }
  destruct a as [x], b as [y]. unfold hours, minutes, seconds in *.
  simpl in *. f_equal.
  rewrite <- (components_recombine x), <- (components_recombine y).
  rewrite Hh, Hm, Hs. reflexivity.
Qed.

Lemma str_injective_witness :
  valid (mkTime 3661) /\ valid (mkTime 3661)
  /\ __str__ (mkTime 3661) = __str__ (mkTime 3661)
  /\ mkTime 3661 = mkTime 3661.
Proof.
  split; [exact valid_3661|]. split; [exact valid_3661|].
  split; [reflexivity|].
  apply (str_injective (mkTime 3661) (mkTime 3661) valid_3661 valid_3661).
  reflexivity.
Defined.

Lemma py_int_str_below_100 (n : Z) :
  0 <= n < 100 ->
  py_int (py_str_int n) = inr n /\ count_char ":" (py_str_int n) = O.
Proof.
  intros Hn.
  assert (Hb : (match py_int (py_str_int n) with
                | inr v => (v =? n) && (count_char ":" (py_str_int n) =? 0)%nat
                | inl _ => false
                end) = true).
  { revert n Hn.
    apply (below_100
             (fun n => match py_int (py_str_int n) with
                       | inr v =>
                           (v =? n)
                           && (count_char ":" (py_str_int n) =? 0)%nat
                       | inl _ => false
                       end)).
    vm_compute. reflexivity. }
  destruct (py_int (py_str_int n)) as [e|v]; [discriminate|].
  apply andb_true_iff in Hb. destruct Hb as [Hv Hc].
  apply Z.eqb_eq in Hv. apply Nat.eqb_eq in Hc. subst v. split; auto.
Qed.

(** X13. The fields need no padding: the three components in range,
    written in plain decimal and joined by colons, are read by
    [from_string] as the [Time] the constructor builds from them. *)
Theorem from_string_unpadded (h m s : Z) :
  0 <= h <= 23 -> 0 <= m <= 59 -> 0 <= s <= 59 ->
  from_string (py_str_int h ++ ":" ++ py_str_int m ++ ":" ++ py_str_int s)
  = __init__ h m s.
Proof.
  intros Hh Hm Hs.
  destruct (py_int_str_below_100 h ltac:(lia)) as [Ih Ch].
  destruct (py_int_str_below_100 m ltac:(lia)) as [Im Cm].
  destruct (py_int_str_below_100 s ltac:(lia)) as [Is Cs].
  unfold from_string.
  change (py_str_int h ++ ":" ++ py_str_int m ++ ":" ++ py_str_int s)
    with (py_str_int h ++ String ":" (py_str_int m ++ String ":" (py_str_int s))).
  rewrite (py_split_app ":" _ _ Ch), (py_split_app ":" _ _ Cm),
    (py_split_no_sep ":" _ Cs).
  rewrite (unpack3_three _ _ _ h m s Ih Im Is). cbn [bind].
  rewrite init_in_range by assumption. reflexivity.
Qed.

Lemma from_string_unpadded_witness :
  0 <= 1 <= 23 /\ 0 <= 2 <= 59 /\ 0 <= 3 <= 59
  /\ from_string (py_str_int 1 ++ ":" ++ py_str_int 2 ++ ":" ++ py_str_int 3)
     = __init__ 1 2 3.
Proof.
  split; [lia|]. split; [lia|]. split; [lia|].
  apply (from_string_unpadded 1 2 3); lia.
Defined.

(** ** Order and components *)

(** X14. On valid [Time]s the order [<] is the order of their triples
    [(hours, minutes, seconds)]. *)
Theorem lt_is_tuple_order (a b : Time) :
  valid a -> valid b ->
  py_lt a (VTime b) = inr (tuple_lt (to_tuple a) (to_tuple b)).
Proof.
  intros Ha Hb. destruct a as [x], b as [y].
  unfold valid in Ha, Hb. simpl in Ha, Hb.
  unfold py_lt, py_order, ret, to_tuple, tuple_lt, hours, minutes, seconds.
  cbn [__lt__ _total_seconds]. f_equal.
  pose proof (components_recombine x) as Rx.
  pose proof (components_recombine y) as Ry.
  pose proof (components_in_range x Ha) as [Xh [Xm Xs]].
  pose proof (components_in_range y Hb) as [Yh [Ym Ys]].
  set (xh := x / 3600) in *. set (xm := (x mod 3600) / 60) in *.
  set (xs := x mod 60) in *. set (yh := y / 3600) in *.
  set (ym := (y mod 3600) / 60) in *. set (ys := y mod 60) in *.
  clearbody xh xm xs yh ym ys.
  destruct (Z.ltb_spec x y), (Z.ltb_spec xh yh), (Z.eqb_spec xh yh),
    (Z.ltb_spec xm ym), (Z.eqb_spec xm ym), (Z.ltb_spec xs ys);
    simpl; try reflexivity; lia.
Qed.

Lemma lt_is_tuple_order_witness :
  valid (mkTime 3661) /\ valid (mkTime 86399)
  /\ py_lt (mkTime 3661) (VTime (mkTime 86399)) =
       inr (tuple_lt (to_tuple (mkTime 3661)) (to_tuple (mkTime 86399))).
Proof.
  split; [exact valid_3661|]. split; [exact valid_86399|].
  apply (lt_is_tuple_order (mkTime 3661) (mkTime 86399)
           valid_3661 valid_86399).
Defined.

(** ** Outcomes of [from_string] *)

(** X15. [from_string] returns a [Time] exactly when the text is three
    fields that [int] reads and the constructor accepts, and the [Time] is
    the constructor's; whatever makes it fail, what it raises is the
    [ValueError] of the one format message, raised from a cause. *)
Theorem from_string_outcomes (s : string) (t : Time) (e : exn) :
  (from_string s = inr t <->
   exists h m sec, three_int_fields s h m sec /\ __init__ h m sec = inr t)
  /\ (from_string s = inl e ->
      exists cause, e = RaisedFrom KValueError (Msg format_message) cause).
Proof.
  split; [split|].
  - intros Hok.
    destruct (unpack3 (py_split ":" s)) as [e'|[[h m] sec]] eqn:E.
    + rewrite (from_string_unpack_failure s e' E) in Hok. discriminate.
    + rewrite (from_string_init s h m sec E) in Hok.
      exists h, m, sec. split; [apply unpack3_ok_iff; assumption|].
      destruct (__init__ h m sec) as [e'|t']; [discriminate|].
      congruence.
  - intros [h [m [sec [Hf Hi]]]]. apply unpack3_ok_iff in Hf.
    rewrite (from_string_init s h m sec Hf), Hi. reflexivity.
  - intros Hfail.
    destruct (unpack3 (py_split ":" s)) as [e'|[[h m] sec]] eqn:E.
    + rewrite (from_string_unpack_failure s e' E) in Hfail.
      exists e'. congruence.
    + rewrite (from_string_init s h m sec E) in Hfail.
      destruct (__init__ h m sec) as [e'|t']; [|discriminate].
      exists e'. congruence.
Qed.

Lemma from_string_outcomes_witness :
  from_string "1:2:x" =
    inl (RaisedFrom KValueError (Msg format_message)
           (Raised KValueError (InvalidLiteral "x")))
  /\ exists cause,
       RaisedFrom KValueError (Msg format_message)
         (Raised KValueError (InvalidLiteral "x"))
       = RaisedFrom KValueError (Msg format_message) cause.
Proof.
  split; [reflexivity|].
  apply (proj2 (from_string_outcomes "1:2:x" (mkTime 0)
                  (RaisedFrom KValueError (Msg format_message)
                     (Raised KValueError (InvalidLiteral "x"))))).
  reflexivity.
Defined.
